(* ===================================================================== *)
(* Traffic Violations Insight Dashboard (app.py): a shallow embedding of  *)
(* the feature derivation, the sidebar filters and the views that read     *)
(* the filtered table, with the properties of the specification.           *)
(* ===================================================================== *)

From Stdlib Require Import ZArith String Ascii Lia.
From HB Require Import structures.
From mathcomp Require Import ssreflect ssrfun ssrbool eqtype ssrnat seq path.

Set Implicit Arguments.
Unset Strict Implicit.
Unset Printing Implicit Defensive.

(* --------------------------------------------------------------------- *)
(* Cell types                                                              *)
(* --------------------------------------------------------------------- *)

(* Integers and strings of the Standard Library, compared with == . *)
HB.instance Definition _ := hasDecEq.Build Z Z.eqb_spec.
HB.instance Definition _ := hasDecEq.Build string String.eqb_spec.

(* The labels of the "Time Bucket" column. *)
Inductive bucket := Night | Morning | Afternoon | Evening.

Definition bucket_code (b : bucket) : nat :=
  match b with Night => 0 | Morning => 1 | Afternoon => 2 | Evening => 3 end.

Definition bucket_decode (n : nat) : bucket :=
  match n with 0 => Night | 1 => Morning | 2 => Afternoon | _ => Evening end.

Definition bucket_codeK : cancel bucket_code bucket_decode :=
  fun b => match b with
           | Night => erefl | Morning => erefl
           | Afternoon => erefl | Evening => erefl
           end.

HB.instance Definition _ := Equality.copy bucket (can_type bucket_codeK).

(* --------------------------------------------------------------------- *)
(* pd.cut, as the app calls it (right=True is the default of pandas)       *)
(* --------------------------------------------------------------------- *)

Section Cut.

Variable label : Type.

(* bins.searchsorted(x, side="left") on ascending edges: the first index
   whose edge is not below x, len(bins) when every edge is below x. *)
Definition searchsorted_left (bins : seq Z) (x : Z) : nat :=
  find (fun b => (x <=? b)%Z) bins.

(* pd.cut(x, bins, labels, include_lowest) for one value:
     ids = bins.searchsorted(x, side="left")
     if include_lowest: ids[x == bins[0]] = 1
     missing where ids == 0 or ids == len(bins), else labels[ids - 1]. *)
Definition cut (x : Z) (bins : seq Z) (labels : seq label)
    (include_lowest : bool) : option label :=
  let ids :=
    if include_lowest && (x == head 0%Z bins) then 1
    else searchsorted_left bins x in
  if (ids == 0) || (ids == size bins) then None
  else nth None [seq Some l | l <- labels] ids.-1.

End Cut.

(* df["Time Bucket"] = pd.cut(df["Stop Hour"], bins=[0, 6, 12, 18, 24],
     labels=["Night", "Morning", "Afternoon", "Evening"],
     include_lowest=True), for one stop hour. *)
Definition time_bucket (hour : Z) : option bucket :=
  cut hour [:: 0; 6; 12; 18; 24]%Z [:: Night; Morning; Afternoon; Evening] true.

(* The bucketing the specification describes, lower bound inclusive. *)
Definition spec_time_bucket (hour : Z) : option bucket :=
  if (0 <=? hour)%Z && (hour <? 6)%Z then Some Night
  else if (6 <=? hour)%Z && (hour <? 12)%Z then Some Morning
  else if (12 <=? hour)%Z && (hour <? 18)%Z then Some Afternoon
  else if (18 <=? hour)%Z && (hour <=? 24)%Z then Some Evening
  else None.

(* The bucketing the code performs: every bin closed on the right, the
   first one closed on the left as well. *)
Definition right_closed_time_bucket (hour : Z) : option bucket :=
  if (0 <=? hour)%Z && (hour <=? 6)%Z then Some Night
  else if (6 <? hour)%Z && (hour <=? 12)%Z then Some Morning
  else if (12 <? hour)%Z && (hour <=? 18)%Z then Some Afternoon
  else if (18 <? hour)%Z && (hour <=? 24)%Z then Some Evening
  else None.

(* --------------------------------------------------------------------- *)
(* The table                                                               *)
(* --------------------------------------------------------------------- *)

(* One row of the dataframe. D is the type of the "Date Of Stop" cell and
   B the type of the "Time Bucket" cell: the app replaces the first column
   and adds the second. "Latitude" and "Longitude" are floating-point
   columns that the app hands on unchanged: a cell holds a finite double,
   written (m, e) for m * 2^e, or the null. *)
Record row_of (D B : Type) := Row {
  Date_Of_Stop : D;
  Stop_Hour : Z;
  Time_Bucket : B;
  VehicleType_Category : option string;
  Gender : option string;
  Race : option string;
  Violation_Type : option string;
  Description : option string;
  Make : option string;
  Location : option string;
  Latitude : option (Z * Z);
  Longitude : option (Z * Z);
  Accident : bool
}.

Section RowEq.

Variables D B : eqType.

Definition row_tuple (r : row_of D B) :=
  (Date_Of_Stop r, Stop_Hour r, Time_Bucket r,
   (VehicleType_Category r, Gender r, Race r, Violation_Type r),
   (Description r, Make r, Location r, Accident r),
   (Latitude r, Longitude r)).

Definition tuple_row
    (t : D * Z * B
         * (option string * option string * option string * option string)
         * (option string * option string * option string * bool)
         * (option (Z * Z) * option (Z * Z))) :
    row_of D B :=
  let: (d, h, b, (v, g, r, vt), (ds, m, l, a), (la, lo)) := t in
  Row d h b v g r vt ds m l la lo a.

Definition row_tupleK : cancel row_tuple tuple_row :=
  fun r => let: Row _ _ _ _ _ _ _ _ _ _ _ _ _ := r in erefl.

HB.instance Definition _ := Equality.copy (row_of D B) (can_type row_tupleK).

End RowEq.

(* What the parquet file may hold in "Date Of Stop": a text, a timestamp
   (nanoseconds since the epoch) or a null. *)
Inductive date_cell := DateText of string | DateStamp of Z | DateNull.

(* A row as read by load_data(): no "Time Bucket" column yet. *)
Definition raw_row := row_of date_cell unit.

(* A row of df after lines 28-36: the date is a timestamp or NaT (None),
   the bucket a label or NaN (None). *)
Definition row := row_of (option Z) (option bucket).

Section Load.

(* The date parser of pandas: None on a text that is not a date. *)
Variable parse_datetime : string -> option Z.

(* pd.to_datetime(..., errors="coerce") on one cell. *)
Definition to_datetime_coerce (c : date_cell) : option Z :=
  match c with
  | DateText s => parse_datetime s
  | DateStamp t => Some t
  | DateNull => None
  end.

(* Lines 28-36 on one row. *)
Definition prepare_row (r : raw_row) : row :=
  Row (to_datetime_coerce (Date_Of_Stop r)) (Stop_Hour r)
      (time_bucket (Stop_Hour r))
      (VehicleType_Category r) (Gender r) (Race r) (Violation_Type r)
      (Description r) (Make r) (Location r) (Latitude r) (Longitude r)
      (Accident r).

(* df after lines 23-36. *)
Definition prepare (raw : seq raw_row) : seq row := [seq prepare_row r | r <- raw].

End Load.

(* --------------------------------------------------------------------- *)
(* Sidebar filters                                                         *)
(* --------------------------------------------------------------------- *)

Definition ns_per_day : Z := 86400000000000.

(* Timestamp.date(): the calendar day (days since the epoch) of a stamp. *)
Definition date_of (t : Z) : Z := (t / ns_per_day)%Z.

(* pd.to_datetime(d) for a datetime.date d: midnight of that day. *)
Definition to_datetime (d : Z) : Z := (d * ns_per_day)%Z.

(* Series.dropna() *)
Definition dropna (T : Type) (col : seq (option T)) : seq T := pmap id col.

(* Series.unique(): the distinct values in order of first appearance. *)
Fixpoint unique (T : eqType) (s : seq T) : seq T :=
  if s is x :: s' then x :: [seq y <- unique s' | y != x] else [::].

(* sorted(col.dropna().unique()): the options of a multiselect. *)
Definition options (col : seq (option string)) : seq string :=
  sort String.leb (unique (dropna col)).

Definition vehicle_types (df : seq row) : seq string :=
  options [seq VehicleType_Category r | r <- df].
Definition genders (df : seq row) : seq string :=
  options [seq Gender r | r <- df].
Definition races (df : seq row) : seq string :=
  options [seq Race r | r <- df].
Definition violation_types (df : seq row) : seq string :=
  options [seq Violation_Type r | r <- df].

(* df["Date Of Stop"].min() and .max(): nulls skipped, NaT (None) when no
   date is left. *)
Definition date_min (df : seq row) : option Z :=
  if dropna [seq Date_Of_Stop r | r <- df] is t :: ts
  then Some (foldr Z.min t ts) else None.

Definition date_max (df : seq row) : option Z :=
  if dropna [seq Date_Of_Stop r | r <- df] is t :: ts
  then Some (foldr Z.max t ts) else None.

(* The value of the date input while the user has not touched it: the days
   of the earliest and the latest stop. Nothing is modelled for a column
   without a single valid date. *)
Definition default_date_range (df : seq row) : option (seq Z) :=
  match date_min df, date_max df with
  | Some lo, Some hi => Some [:: date_of lo; date_of hi]
  | _, _ => None
  end.

(* Series.between(left, right): both ends inclusive, false on NaT. *)
Definition between (v : option Z) (left right : Z) : bool :=
  if v is Some t then (left <=? t)%Z && (t <=? right)%Z else false.

(* Series.isin(values) for the value list of a multiselect, which holds
   options only, hence no null. *)
Definition isin (v : option string) (values : seq string) : bool :=
  if v is Some s then s \in values else false.

(* The boolean mask of lines 84-93 on one row. *)
Definition row_mask (d0 d1 : Z)
    (selected_vehicle selected_gender selected_race selected_violation :
       seq string) (r : row) : bool :=
  [&& between (Date_Of_Stop r) (to_datetime d0) (to_datetime d1),
      isin (VehicleType_Category r) selected_vehicle,
      isin (Gender r) selected_gender,
      isin (Race r) selected_race
    & isin (Violation_Type r) selected_violation].

(* filtered_df. date_range is the tuple returned by the date input;
   date_range[0] and date_range[1] raise IndexError (None) on a shorter
   tuple. *)
Definition filtered_df (df : seq row) (date_range : seq Z)
    (selected_vehicle selected_gender selected_race selected_violation :
       seq string) : option (seq row) :=
  if date_range is [:: d0, d1 & _] then
    Some [seq r <- df | row_mask d0 d1 selected_vehicle selected_gender
                                 selected_race selected_violation r]
  else None.

(* --------------------------------------------------------------------- *)
(* Views                                                                   *)
(* --------------------------------------------------------------------- *)

(* Series.sort_values(ascending=False), as value_counts() applies it to
   its table of counts: a rearrangement of the entries with the counts in
   descending order. Which of two entries with equal counts comes first is
   left to the sorting algorithm of the library; the app passes no option
   for it, and the default algorithm is not a stable one. *)
Record count_sort := CountSort {
  sort_values :> seq (string * nat) -> seq (string * nat);
  sort_valuesP : forall s,
    perm_eq (sort_values s) s
    /\ sorted (fun a b => b.2 <= a.2) (sort_values s)
}.

(* A sort is stable when the entries of each count keep the order in which
   it found them. *)
Definition keeps_ties (sv : count_sort) : Prop :=
  forall s c, [seq a <- sv s | a.2 == c] = [seq a <- s | a.2 == c].

(* Series.value_counts(): nulls dropped, one entry per distinct value in
   order of first appearance, then sorted by count, highest first. *)
Definition value_counts (sv : count_sort) (col : seq (option string)) :
    seq (string * nat) :=
  let vals := dropna col in
  sv [seq (v, count_mem v vals) | v <- unique vals].

(* filtered_df["Make"].value_counts().head(10).reset_index() *)
Definition top_makes (sv : count_sort) (fdf : seq row) : seq (string * nat) :=
  take 10 (value_counts sv [seq Make r | r <- fdf]).

(* filtered_df["Description"].value_counts().head(10).reset_index() *)
Definition top_violations (sv : count_sort) (fdf : seq row) :
    seq (string * nat) :=
  take 10 (value_counts sv [seq Description r | r <- fdf]).

(* What the specification asks of a top-N table computed from a column:
   at most n entries, each with the number of occurrences of its value,
   counts in descending order, and among entries with equal counts the
   value that appears first in the column first. *)
Definition sorted_by_count (top : seq (string * nat)) : bool :=
  sorted (fun a b => b.2 <= a.2) top.

Definition ties_in_input_order (col : seq (option string))
    (top : seq (string * nat)) : bool :=
  pairwise (fun a b =>
              (a.2 == b.2) ==> (index (Some a.1) col < index (Some b.1) col))
           top.

Definition counts_of (col : seq (option string))
    (top : seq (string * nat)) : bool :=
  all (fun a => a.2 == count_mem (Some a.1) col) top.

(* filtered_df.head(200), the table shown in the Data Explorer tab. *)
Definition preview (fdf : seq row) : seq row := take 200 fdf.

(* A field of the CSV export, before it is printed. *)
Inductive cell :=
  | Text of string | Int of Z | Stamp of Z | Flag of bool
  | Label of bucket | Num of Z * Z | Empty.

Definition cell_code (c : cell) :
    string + Z + Z + bool + bucket + Z * Z + unit :=
  match c with
  | Text s => inl (inl (inl (inl (inl (inl s)))))
  | Int z => inl (inl (inl (inl (inl (inr z)))))
  | Stamp t => inl (inl (inl (inl (inr t))))
  | Flag b => inl (inl (inl (inr b)))
  | Label l => inl (inl (inr l))
  | Num x => inl (inr x)
  | Empty => inr tt
  end.

Definition cell_decode
    (c : string + Z + Z + bool + bucket + Z * Z + unit) : cell :=
  match c with
  | inl (inl (inl (inl (inl (inl s))))) => Text s
  | inl (inl (inl (inl (inl (inr z))))) => Int z
  | inl (inl (inl (inl (inr t)))) => Stamp t
  | inl (inl (inl (inr b))) => Flag b
  | inl (inl (inr l)) => Label l
  | inl (inr x) => Num x
  | inr _ => Empty
  end.

Definition cell_codeK : cancel cell_code cell_decode :=
  fun c => match c with
           | Text _ => erefl | Int _ => erefl | Stamp _ => erefl
           | Flag _ => erefl | Label _ => erefl | Num _ => erefl
           | Empty => erefl
           end.

HB.instance Definition _ := Equality.copy cell (can_type cell_codeK).

Definition ocell (T : Type) (f : T -> cell) (v : option T) : cell :=
  if v is Some x then f x else Empty.

(* The columns that the app names, those of the file first and
   "Time Bucket", which line 31 adds to the dataframe, last. *)
Definition csv_header : seq cell :=
  [seq Text c | c <- [:: "Date Of Stop"; "Description"; "Location";
                         "Latitude"; "Longitude"; "Accident"; "Make";
                         "Violation Type"; "Race"; "Gender"; "Stop Hour";
                         "VehicleType_Category"; "Time Bucket"]%string].

Definition csv_record (r : row) : seq cell :=
  [:: ocell Stamp (Date_Of_Stop r); ocell Text (Description r);
      ocell Text (Location r); ocell Num (Latitude r);
      ocell Num (Longitude r); Flag (Accident r); ocell Text (Make r);
      ocell Text (Violation_Type r); ocell Text (Race r);
      ocell Text (Gender r); Int (Stop_Hour r);
      ocell Text (VehicleType_Category r); ocell Label (Time_Bucket r)].

(* filtered_df.to_csv(index=False): the header, then a record per row. *)
Definition to_csv (fdf : seq row) : seq (seq cell) :=
  csv_header :: [seq csv_record r | r <- fdf].

(* The records of an export, header removed. *)
Definition csv_rows (csv : seq (seq cell)) : seq (seq cell) := behead csv.

(* --------------------------------------------------------------------- *)
(* Overview metrics and the time-of-day chart                              *)
(* --------------------------------------------------------------------- *)

(* len(filtered_df), the "Total Violations" metric. *)
Definition total_violations (fdf : seq row) : nat := size fdf.

(* int(filtered_df["Accident"].sum()): a sum of booleans. *)
Definition accident_related (fdf : seq row) : nat :=
  sumn [seq (Accident r : nat) | r <- fdf].

(* Series.nunique(): the number of distinct values, nulls not counted. *)
Definition nunique (T : eqType) (col : seq (option T)) : nat :=
  size (unique (dropna col)).

(* filtered_df["Location"].nunique(), the "High-Risk Locations" metric. *)
Definition high_risk_locations (fdf : seq row) : nat :=
  nunique [seq Location r | r <- fdf].

(* filtered_df["Make"].nunique(), the "Unique Vehicle Makes" metric. *)
Definition unique_vehicle_makes (fdf : seq row) : nat :=
  nunique [seq Make r | r <- fdf].

(* The categories of the column that pd.cut builds, in label order. *)
Definition categories : seq bucket := [:: Night; Morning; Afternoon; Evening].

(* Series.value_counts() of a categorical column: one entry per category,
   the categories that do not occur with count 0, sorted by count, highest
   first, equal counts in category order. *)
Definition value_counts_categorical (col : seq (option bucket)) :
    seq (bucket * nat) :=
  sort (fun a b => b.2 <= a.2)
       [seq (c, count_mem c (dropna col)) | c <- categories].

(* filtered_df["Time Bucket"].value_counts().reset_index() *)
Definition time_df (fdf : seq row) : seq (bucket * nat) :=
  value_counts_categorical [seq Time_Bucket r | r <- fdf].

(* --------------------------------------------------------------------- *)
(* Sample data                                                             *)
(* --------------------------------------------------------------------- *)

(* A stop as the file holds it, with a date text and a stop hour. *)
Definition sample_raw (date : string) (h : Z) : raw_row :=
  Row (DateText date) h tt (Some "Car"%string) (Some "M"%string)
      (Some "WHITE"%string) (Some "Citation"%string)
      (Some "SPEEDING"%string) (Some "FORD"%string) (Some "MAIN ST"%string)
      (Some (5015, -7)%Z) (Some (-9868, -7)%Z) false.

(* A parser that knows one date, 2023-01-05 (day 19362 of the epoch). *)
Definition sample_parse (s : string) : option Z :=
  if s == "2023-01-05"%string then Some (to_datetime 19362) else None.

(* A prepared row with the given date, gender and make. *)
Definition sample_row (date : option Z) (gender make : option string) : row :=
  Row date 9%Z (time_bucket 9) (Some "Car"%string) gender
      (Some "WHITE"%string) (Some "Citation"%string)
      (Some "SPEEDING"%string) make (Some "MAIN ST"%string)
      (Some (5015, -7)%Z) (Some (-9868, -7)%Z) false.

(* Two stops on consecutive days, nothing missing. *)
Definition sample_df : seq row :=
  [:: sample_row (Some (to_datetime 19362)) (Some "M"%string) (Some "FORD"%string);
      sample_row (Some (to_datetime 19363)) (Some "F"%string) (Some "TOYOTA"%string)].

(* The same stops, the gender of the second one missing. *)
Definition sample_df_null : seq row :=
  [:: sample_row (Some (to_datetime 19362)) (Some "M"%string) (Some "FORD"%string);
      sample_row (Some (to_datetime 19363)) None (Some "TOYOTA"%string)].

(* Two sorts of the library's kind. Merge sort is stable; merge sort of the
   reversed table lists entries with equal counts in reverse order. *)
Definition stable_sort_values : count_sort :=
  CountSort (fun s : seq (string * nat) =>
    conj (permEl (perm_sort (fun a b => b.2 <= a.2) s))
         (sort_sorted (fun a b : string * nat => leq_total b.2 a.2) s)).

Definition reverse_ties_sort_values : count_sort :=
  CountSort (fun s : seq (string * nat) =>
    conj (perm_trans (permEl (perm_sort (fun a b => b.2 <= a.2) (rev s)))
                     (permEl (perm_rev s)))
         (sort_sorted (fun a b : string * nat => leq_total b.2 a.2) (rev s))).

(* The same stops, the second one stamped one hour after midnight. *)
Definition sample_df_timed : seq row :=
  [:: sample_row (Some (to_datetime 19362)) (Some "M"%string) (Some "FORD"%string);
      sample_row (Some (to_datetime 19363 + 3600000000000)%Z)
                 (Some "F"%string) (Some "TOYOTA"%string)].

(* ===================================================================== *)
(* Properties                                                              *)
(* ===================================================================== *)

Lemma time_bucketE (hour : Z) : time_bucket hour = right_closed_time_bucket hour.
Proof.
rewrite /time_bucket /right_closed_time_bucket /cut /searchsorted_left /=.
case: (hour =P 0%Z) => [->|h0] //=.
case: (Z.leb_spec hour 0); case: (Z.leb_spec 0 hour);
case: (Z.leb_spec hour 6); case: (Z.ltb_spec 6 hour);
case: (Z.leb_spec hour 12); case: (Z.ltb_spec 12 hour);
case: (Z.leb_spec hour 18); case: (Z.ltb_spec 18 hour);
case: (Z.leb_spec hour 24) => //=; lia.
Qed.

(* --------------------------------------------------------------------- *)
(* Time buckets                                                            *)
(* --------------------------------------------------------------------- *)

(** C1, as the specification states it, fails on the boundary hours: the
    code sends 6, 12 and 18 to Night, Morning and Afternoon, where the
    lower-bound-inclusive reading expects Morning, Afternoon and Evening. *)
Lemma boundary_hours_not_lower_inclusive :
  [seq time_bucket h | h <- [:: 0; 6; 12; 18; 24]%Z]
    = [:: Some Night; Some Night; Some Morning; Some Afternoon; Some Evening]
  /\ [seq time_bucket h | h <- [:: 0; 6; 12; 18; 24]%Z]
       <> [seq spec_time_bucket h | h <- [:: 0; 6; 12; 18; 24]%Z]
  /\ [seq spec_time_bucket h | h <- [:: 0; 6; 12; 18; 24]%Z]
       = [:: Some Night; Some Morning; Some Afternoon; Some Evening;
             Some Evening].
Proof. by []. Qed.

(** C1 (amended): for every row the derived time bucket is a function of the
    stop hour alone, with upper-bound-inclusive boundaries: hours in [0,6]
    map to Night, (6,12] to Morning, (12,18] to Afternoon, (18,24] to
    Evening, and any other hour to no bucket; the boundary hours 0, 6, 12,
    18, 24 map to Night, Night, Morning, Afternoon, Evening. *)
Theorem time_bucket_right_closed :
  (forall (parse_datetime : string -> option Z) (r : raw_row),
     Time_Bucket (prepare_row parse_datetime r)
       = right_closed_time_bucket (Stop_Hour r))
  /\ [seq time_bucket h | h <- [:: 0; 6; 12; 18; 24]%Z]
       = [:: Some Night; Some Night; Some Morning; Some Afternoon;
             Some Evening].
Proof. by split=> // parse r; rewrite /= time_bucketE. Qed.

Lemma Time_Bucket_prepare (parse_datetime : string -> option Z)
    (raw : seq raw_row) :
  [seq Time_Bucket r | r <- prepare parse_datetime raw]
    = [seq time_bucket h | h <- [seq Stop_Hour r | r <- raw]].
Proof. by rewrite /prepare -!map_comp. Qed.

(** C8: a table whose stop-hour column is [3, 7, 13, 19] gets the time
    buckets [Night, Morning, Afternoon, Evening], in that order. *)
Theorem example_hours_buckets (parse_datetime : string -> option Z)
    (raw : seq raw_row) :
  [seq Stop_Hour r | r <- raw] = [:: 3; 7; 13; 19]%Z ->
  [seq Time_Bucket r | r <- prepare parse_datetime raw]
    = [:: Some Night; Some Morning; Some Afternoon; Some Evening].
Proof. by move=> hours; rewrite Time_Bucket_prepare hours. Qed.

Lemma example_hours_buckets_witness :
  [seq Time_Bucket r
     | r <- prepare sample_parse
             [seq sample_raw "2023-01-05" h | h <- [:: 3; 7; 13; 19]%Z]]
    = [:: Some Night; Some Morning; Some Afternoon; Some Evening].
Proof. by apply: example_hours_buckets. Defined.

(* --------------------------------------------------------------------- *)
(* Options of the multiselects                                             *)
(* --------------------------------------------------------------------- *)

Section Unique.

Variable T : eqType.
Implicit Types (s : seq T) (x y : T).

Lemma mem_unique s : unique s =i s.
Proof.
elim: s => [|x s IH] y //=.
rewrite !inE mem_filter IH.
by case: (y =P x).
Qed.

Lemma unique_uniq s : uniq (unique s).
Proof.
elim: s => [|x s IH] //=.
by rewrite mem_filter eqxx /= filter_uniq.
Qed.

Lemma mem_dropna (col : seq (option T)) x : (x \in dropna col) = (Some x \in col).
Proof. by rewrite /dropna mem_pmap map_id. Qed.

End Unique.

Lemma mem_options (col : seq (option string)) (x : string) :
  (x \in options col) = (Some x \in col).
Proof. by rewrite /options mem_sort mem_unique mem_dropna. Qed.

(* A non-null cell is matched by the full option list of its column. *)
Lemma isin_options (f : row -> option string) (df : seq row) (r : row) :
  r \in df -> isSome (f r) -> isin (f r) (options [seq f x | x <- df]).
Proof.
move=> r_df; case E: (f r) => [v|] //= _.
by rewrite mem_options -E map_f.
Qed.

(* --------------------------------------------------------------------- *)
(* The filter                                                              *)
(* --------------------------------------------------------------------- *)

Section Filter.

Variable df : seq row.
Variables d0 d1 : Z.
Variables sv sg sr svt : seq string.

(* With both ends of the date range given, the filter returns a table. *)
Lemma filtered_df_range :
  filtered_df df [:: d0; d1] sv sg sr svt
    = Some [seq r <- df | row_mask d0 d1 sv sg sr svt r].
Proof. by []. Qed.

Lemma filtered_dfP (date_range : seq Z) (fdf : seq row) :
  filtered_df df date_range sv sg sr svt = Some fdf ->
  exists d0' d1',
    [/\ nth 0%Z date_range 0 = d0', nth 0%Z date_range 1 = d1',
        1 < size date_range
      & fdf = [seq r <- df | row_mask d0' d1' sv sg sr svt r]].
Proof.
case: date_range => [|a [|b dr]] //= [<-].
by exists a, b.
Qed.

End Filter.

(* A short tuple from the date input makes the indexing fail. *)
Lemma filtered_df_short (df : seq row) (date_range : seq Z)
    (sv sg sr svt : seq string) :
  size date_range < 2 -> filtered_df df date_range sv sg sr svt = None.
Proof. by case: date_range => [|a [|b dr]]. Qed.

(** C3: the row-selection predicate is the conjunction of five conditions,
    the date range test and four set-membership tests, so that a row is in
    the filtered table exactly when it is in the table and passes all five;
    and an empty selection in any one of the four multiselects leaves no
    row, whatever the other selections are. *)
Theorem filter_conjunction_and_empty_selection (df : seq row) (d0 d1 : Z)
    (sv sg sr svt : seq string) :
  (exists2 fdf, filtered_df df [:: d0; d1] sv sg sr svt = Some fdf
     & forall r, (r \in fdf)
         = [&& r \in df,
               between (Date_Of_Stop r) (to_datetime d0) (to_datetime d1),
               isin (VehicleType_Category r) sv, isin (Gender r) sg,
               isin (Race r) sr & isin (Violation_Type r) svt])
  /\ [/\ filtered_df df [:: d0; d1] [::] sg sr svt = Some [::],
         filtered_df df [:: d0; d1] sv [::] sr svt = Some [::],
         filtered_df df [:: d0; d1] sv sg [::] svt = Some [::]
       & filtered_df df [:: d0; d1] sv sg sr [::] = Some [::]].
Proof.
split.
  eexists; first exact: filtered_df_range.
  by move=> r; rewrite mem_filter andbC.
have none (a : pred row) : (forall r, a r = false) -> [seq r <- df | a r] = [::].
  by move=> a0; rewrite (eq_filter a0) filter_pred0.
split; rewrite filtered_df_range; congr Some; apply: none => r;
  rewrite /row_mask /isin; do ?[case: (_ r) => [?|]]; 
  by rewrite ?in_nil ?andbF.
Qed.

(** C2, as the specification states it, fails on a table with a missing
    gender: with every option of every multiselect selected and the date
    range from the first to the last stop date, the row without a gender is
    filtered out. *)
Lemma full_selection_drops_null_row :
  default_date_range sample_df_null = Some [:: 19362; 19363]%Z
  /\ filtered_df sample_df_null [:: 19362; 19363]%Z
       (vehicle_types sample_df_null) (genders sample_df_null)
       (races sample_df_null) (violation_types sample_df_null)
     = Some [:: sample_row (Some (to_datetime 19362)) (Some "M"%string)
                           (Some "FORD"%string)]
  /\ filtered_df sample_df_null [:: 19362; 19363]%Z
       (vehicle_types sample_df_null) (genders sample_df_null)
       (races sample_df_null) (violation_types sample_df_null)
     <> Some sample_df_null.
Proof. by []. Qed.

(** C2 (amended): for every dataset, every date range and every selection in
    the four multiselects the filtered row count never exceeds the
    unfiltered row count; and when every available option of every
    multiselect is selected, the date range (from midnight of its first day
    to midnight of its last day) contains the stop date of every row, and no
    row has a missing stop date or a missing value in any of the four
    categorical columns, the filtered table equals the unfiltered table. *)
Theorem filtered_size_and_full_selection (df : seq row) (d0 d1 : Z)
    (sv sg sr svt : seq string) :
  (exists2 fdf, filtered_df df [:: d0; d1] sv sg sr svt = Some fdf
     & size fdf <= size df)
  /\ (all (fun r => [&& isSome (VehicleType_Category r), isSome (Gender r),
                       isSome (Race r) & isSome (Violation_Type r)]) df ->
      all (fun r => between (Date_Of_Stop r) (to_datetime d0) (to_datetime d1))
          df ->
      filtered_df df [:: d0; d1] (vehicle_types df) (genders df) (races df)
                  (violation_types df) = Some df).
Proof.
split.
  eexists; first exact: filtered_df_range.
  by rewrite size_filter count_size.
move=> /allP full /allP dated; rewrite filtered_df_range; congr Some.
apply/all_filterP/allP => r r_df.
have /and4P[v g ra vt] := full r r_df.
by rewrite /row_mask dated ?isin_options.
Qed.

Lemma filtered_size_and_full_selection_witness :
  (exists2 fdf,
     filtered_df sample_df [:: 19362; 19363]%Z [:: "Car"%string]
                 [:: "M"%string] [:: "WHITE"%string] [:: "Citation"%string]
       = Some fdf
     & size fdf <= size sample_df)
  /\ filtered_df sample_df [:: 19362; 19363]%Z (vehicle_types sample_df)
       (genders sample_df) (races sample_df) (violation_types sample_df)
     = Some sample_df.
Proof.
have [sz full] :=
  filtered_size_and_full_selection sample_df 19362 19363 [:: "Car"%string]
    [:: "M"%string] [:: "WHITE"%string] [:: "Citation"%string].
by split; [exact: sz | apply: full].
Defined.

(* The default of the date input covers every stop when the stop dates
   carry no time of day. *)
Lemma foldr_min_le (t : Z) (ts : seq Z) (x : Z) :
  x \in t :: ts -> (foldr Z.min t ts <= x)%Z.
Proof.
elim: ts => [|y ts IH] /=; first by rewrite inE => /eqP->; lia.
rewrite !inE => /or3P[/eqP xt|/eqP xy|x_ts].
- by have := IH; rewrite inE xt eqxx => /(_ isT); lia.
- by rewrite xy; lia.
- by have := IH; rewrite inE x_ts orbT => /(_ isT); lia.
Qed.

Lemma foldr_max_ge (t : Z) (ts : seq Z) (x : Z) :
  x \in t :: ts -> (x <= foldr Z.max t ts)%Z.
Proof.
elim: ts => [|y ts IH] /=; first by rewrite inE => /eqP->; lia.
rewrite !inE => /or3P[/eqP xt|/eqP xy|x_ts].
- by have := IH; rewrite inE xt eqxx => /(_ isT); lia.
- by rewrite xy; lia.
- by have := IH; rewrite inE x_ts orbT => /(_ isT); lia.
Qed.

Lemma foldr_min_mem (t : Z) (ts : seq Z) : foldr Z.min t ts \in t :: ts.
Proof.
elim: ts => [|y ts IH] /=; first exact: mem_head.
case: (Z.min_spec y (foldr Z.min t ts)) => -[_ ->].
  by rewrite !inE eqxx orbT.
by move: IH; rewrite !inE => /orP[->|->] //; rewrite !orbT.
Qed.

Lemma foldr_max_mem (t : Z) (ts : seq Z) : foldr Z.max t ts \in t :: ts.
Proof.
elim: ts => [|y ts IH] /=; first exact: mem_head.
case: (Z.max_spec y (foldr Z.max t ts)) => -[_ ->].
  by move: IH; rewrite !inE => /orP[->|->] //; rewrite !orbT.
by rewrite !inE eqxx orbT.
Qed.

Lemma to_datetime_date_of (t : Z) :
  (t mod ns_per_day)%Z = 0%Z -> to_datetime (date_of t) = t.
Proof.
rewrite /to_datetime /date_of /ns_per_day => t0.
have := Z.div_mod t 86400000000000; lia.
Qed.

(** X21: when the table is not empty and every stop date is a valid date
    without a time of day, the default of the date input is a range that
    contains the stop date of every row. *)
Lemma default_date_range_covers (df : seq row) :
  df != [::] ->
  all (fun r => if Date_Of_Stop r is Some t
                then (t mod ns_per_day)%Z == 0%Z else false) df ->
  exists d0 d1,
    default_date_range df = Some [:: d0; d1]
    /\ all (fun r => between (Date_Of_Stop r) (to_datetime d0) (to_datetime d1))
           df.
Proof.
move=> df0 /allP midnight.
have stamps t : t \in dropna [seq Date_Of_Stop r | r <- df] ->
    (t mod ns_per_day)%Z = 0%Z.
  rewrite mem_dropna => /mapP[r /midnight + t_r].
  by rewrite -t_r => /eqP.
have dated r : r \in df ->
    exists2 t, Date_Of_Stop r = Some t
             & t \in dropna [seq Date_Of_Stop r | r <- df].
  move=> r_df; have := midnight r r_df.
  case E: (Date_Of_Stop r) => [t|] // _.
  by exists t; rewrite // mem_dropna -E map_f.
rewrite /default_date_range /date_min /date_max.
case E: (dropna _) stamps dated => [|t ts] stamps dated.
  by case: df df0 {E midnight} dated => [|r df] // _ /(_ r (mem_head _ _))[].
exists (date_of (foldr Z.min t ts)), (date_of (foldr Z.max t ts)); split=> //.
apply/allP => r /dated[x -> x_in]; rewrite /between.
rewrite !to_datetime_date_of; try exact/stamps/foldr_min_mem;
  try exact/stamps/foldr_max_mem.
by apply/andP; split; apply/Z.leb_le;
   [exact: foldr_min_le | exact: foldr_max_ge].
Qed.

(* With a time of day in the stamps, the default range ends at midnight of
   the last day and loses the later stops of that day. *)
Lemma default_date_range_cuts_last_day :
  let df := [:: sample_row (Some (to_datetime 19362)) (Some "M"%string)
                           (Some "FORD"%string);
                sample_row (Some (to_datetime 19363 + 1)%Z) (Some "F"%string)
                           (Some "TOYOTA"%string)] in
  default_date_range df = Some [:: 19362; 19363]%Z
  /\ filtered_df df [:: 19362; 19363]%Z (vehicle_types df) (genders df)
                 (races df) (violation_types df)
     = Some [:: sample_row (Some (to_datetime 19362)) (Some "M"%string)
                           (Some "FORD"%string)].
Proof. by []. Qed.

(** C6: filtering is idempotent: for every date range and every selection
    of the four multiselects, the same filter applied to the filtered table
    returns the filtered table unchanged. *)
Theorem filtered_df_idempotent (df : seq row) (date_range : seq Z)
    (sv sg sr svt : seq string) (fdf : seq row) :
  filtered_df df date_range sv sg sr svt = Some fdf ->
  filtered_df fdf date_range sv sg sr svt = Some fdf.
Proof.
case: date_range => [|a [|b dr]] //= [<-].
by rewrite filter_id.
Qed.

Lemma filtered_df_idempotent_witness :
  filtered_df [:: sample_row (Some (to_datetime 19362)) (Some "M"%string)
                             (Some "FORD"%string)]
              [:: 19362; 19363]%Z [:: "Car"%string] [:: "M"%string]
              [:: "WHITE"%string] [:: "Citation"%string]
    = Some [:: sample_row (Some (to_datetime 19362)) (Some "M"%string)
                          (Some "FORD"%string)].
Proof. by apply: (@filtered_df_idempotent sample_df). Defined.

(* Rows of the filtered table pass the mask. *)
Lemma filtered_df_mask (df : seq row) (date_range : seq Z)
    (sv sg sr svt : seq string) (fdf : seq row) (r : row) :
  filtered_df df date_range sv sg sr svt = Some fdf -> r \in fdf ->
  [/\ r \in df, isSome (Date_Of_Stop r)
    & [/\ isin (VehicleType_Category r) sv, isin (Gender r) sg,
          isin (Race r) sr & isin (Violation_Type r) svt]].
Proof.
move=> /filtered_dfP[a [b [_ _ _ ->]]].
rewrite mem_filter /row_mask /between => /andP[/and5P[dt -> -> -> ->] ->].
by split=> //; case: (Date_Of_Stop r) dt.
Qed.

(** C9: a row with a missing value in any of the four categorical filter
    columns is in no filtered table, whatever is selected, the selection of
    every listed option of every multiselect included: an option list holds
    no null, and a null matches no membership test. *)
Theorem missing_category_excluded (df : seq row) (date_range : seq Z)
    (sv sg sr svt : seq string) (fdf : seq row) (r : row) :
  filtered_df df date_range sv sg sr svt = Some fdf ->
  [|| VehicleType_Category r == None, Gender r == None, Race r == None
    | Violation_Type r == None] ->
  r \notin fdf.
Proof.
move=> filt missing; apply/negP => /(filtered_df_mask filt)[_ _ [v g ra vt]].
by move: missing v g ra vt; rewrite /isin;
   case: (VehicleType_Category r); case: (Gender r); case: (Race r);
   case: (Violation_Type r).
Qed.

Lemma missing_category_excluded_witness :
  sample_row (Some (to_datetime 19363)) None (Some "TOYOTA"%string)
    \notin [:: sample_row (Some (to_datetime 19362)) (Some "M"%string)
                          (Some "FORD"%string)].
Proof.
apply: (@missing_category_excluded sample_df_null [:: 19362; 19363]%Z
          (vehicle_types sample_df_null) (genders sample_df_null)
          (races sample_df_null) (violation_types sample_df_null)).
- by [].
- by [].
Defined.

(** C5: loading turns a date text that cannot be parsed into the missing
    marker, without an error, and the loaded row is in no filtered table,
    whatever date range is chosen. *)
Theorem malformed_date_coerced_and_excluded
    (parse_datetime : string -> option Z) (r : raw_row) (s : string) :
  Date_Of_Stop r = DateText s -> parse_datetime s = None ->
  Date_Of_Stop (prepare_row parse_datetime r) = None
  /\ forall (df : seq row) (date_range : seq Z) (sv sg sr svt : seq string)
        (fdf : seq row),
      filtered_df df date_range sv sg sr svt = Some fdf ->
      prepare_row parse_datetime r \notin fdf.
Proof.
move=> text bad.
have nat_ : Date_Of_Stop (prepare_row parse_datetime r) = None.
  by rewrite /= text.
split=> // df date_range sv sg sr svt fdf filt.
by apply/negP => /(filtered_df_mask filt)[_ + _]; rewrite nat_.
Qed.

Lemma malformed_date_coerced_and_excluded_witness :
  Date_Of_Stop (prepare_row sample_parse (sample_raw "05/13/2023x" 9)) = None
  /\ forall (df : seq row) (date_range : seq Z) (sv sg sr svt : seq string)
        (fdf : seq row),
      filtered_df df date_range sv sg sr svt = Some fdf ->
      prepare_row sample_parse (sample_raw "05/13/2023x" 9) \notin fdf.
Proof.
by apply: (@malformed_date_coerced_and_excluded sample_parse
             (sample_raw "05/13/2023x" 9) "05/13/2023x"%string).
Defined.

(* --------------------------------------------------------------------- *)
(* Top-10 aggregations                                                     *)
(* --------------------------------------------------------------------- *)

Section FirstAppearance.

Variable T : eqType.

(* Dropping the nulls keeps the order of first appearance. *)
Lemma index_dropna (col : seq (option T)) (u v : T) :
  (index u (dropna col) < index v (dropna col))
    = (index (Some u) col < index (Some v) col).
Proof.
elim: col => [|[x|] col IH] //=.
have eqS (y : T) : (Some x == Some y) = (x == y) by [].
by rewrite !eqS; case: (x == u); case: (x == v).
Qed.

Lemma count_dropna (col : seq (option T)) (v : T) :
  count_mem v (dropna col) = count_mem (Some v) col.
Proof. by elim: col => [|[x|] col IH] //=; rewrite IH. Qed.

(* unique lists the values by increasing position of first appearance. *)
Lemma unique_index_sorted (s : seq T) :
  sorted ltn [seq index u s | u <- unique s].
Proof.
elim: s => [|x s IH] //=; rewrite eqxx.
have -> : [seq (if x == u then 0 else (index u s).+1)
            | u <- [seq y <- unique s | y != x]]
          = [seq (index u s).+1 | u <- [seq y <- unique s | y != x]].
  apply/eq_in_map => u; rewrite mem_filter eq_sym => /andP[ux _].
  by rewrite (negbTE ux).
rewrite (path_sortedE ltn_trans) all_map; apply/andP; split.
  exact/allP.
rewrite (map_comp succn) sorted_map.
apply: (@subseq_sorted _ ltn ltn_trans _ [seq index u s | u <- unique s]) => //.
exact/map_subseq/filter_subseq.
Qed.

End FirstAppearance.

(* Entries related within each class of equal keys are related across the
   list whenever their keys agree. *)
Lemma pairwise_classes (T K : eqType) (key : T -> K) (r : rel T) (l : seq T) :
  (forall c, pairwise r [seq a <- l | key a == c]) ->
  pairwise (fun a b => (key a == key b) ==> r a b) l.
Proof.
elim: l => [|x l IH] //= cls; apply/andP; split.
  apply/allP => y y_l; apply/implyP => /eqP xy.
  have := cls (key x); rewrite /= eqxx /= => /andP[/allP first _].
  by apply: first; rewrite mem_filter y_l -xy eqxx.
apply: IH => c; have := cls c => /=.
by case: (key x == c) => //= /andP[].
Qed.

Lemma count_desc_trans : transitive (fun a b : string * nat => b.2 <= a.2).
Proof. by move=> b a c /= ba cb; exact: leq_trans cb ba. Qed.

Section ValueCounts.

Variable sv : count_sort.
Variable col : seq (option string).

(* The table of counts before it is sorted. *)
Let entries : seq (string * nat) :=
  [seq (v, count_mem v (dropna col)) | v <- unique (dropna col)].

Lemma value_counts_perm : perm_eq (value_counts sv col) entries.
Proof. by have [] := sort_valuesP sv entries. Qed.

Lemma value_counts_sorted : sorted_by_count (value_counts sv col).
Proof. by have [] := sort_valuesP sv entries. Qed.

Lemma value_counts_counts : counts_of col (value_counts sv col).
Proof.
rewrite /counts_of (perm_all _ value_counts_perm) all_map.
by apply/allP => v _ /=; rewrite count_dropna.
Qed.

(* The entries of value_counts carry distinct values, one per value that
   occurs in the column. *)
Lemma value_counts_keys :
  perm_eq [seq a.1 | a <- value_counts sv col] (unique (dropna col)).
Proof.
have := perm_map fst value_counts_perm.
by rewrite -[X in perm_eq _ X -> _]map_comp map_id_in.
Qed.

(* Before the sort the entries are in order of first appearance. *)
Lemma entries_first_appearance :
  pairwise (fun a b => index (Some a.1) col < index (Some b.1) col) entries.
Proof.
rewrite pairwise_map.
have <- : pairwise (relpre (index^~ (dropna col)) ltn) (unique (dropna col))
          = pairwise (fun u v => index (Some u) col < index (Some v) col)
                     (unique (dropna col)).
  by apply: eq_pairwise => u v /=; rewrite index_dropna.
by rewrite -pairwise_map -(sorted_pairwise ltn_trans) unique_index_sorted.
Qed.

(* A stable sort leaves equal counts in order of first appearance. *)
Lemma value_counts_ties :
  keeps_ties sv -> ties_in_input_order col (value_counts sv col).
Proof.
move=> stable; apply: (@pairwise_classes _ _ snd) => c.
rewrite /value_counts stable.
exact: subseq_pairwise (filter_subseq _ _) entries_first_appearance.
Qed.

Lemma head_value_counts (n : nat) :
  [/\ size (take n (value_counts sv col)) <= n,
      sorted_by_count (take n (value_counts sv col)),
      counts_of col (take n (value_counts sv col))
    & keeps_ties sv ->
      ties_in_input_order col (take n (value_counts sv col))].
Proof.
split.
- by rewrite size_take_min geq_minl.
- exact/take_sorted/value_counts_sorted.
- apply/allP => a /mem_take; exact: (allP value_counts_counts).
- move=> /value_counts_ties; exact: subseq_pairwise (take_subseq _ _).
Qed.

(* What head(n) cuts off has no higher count than what it keeps. *)
Lemma head_value_counts_highest (n : nat) :
  allrel (fun a b => b.2 <= a.2)
         (take n (value_counts sv col)) (drop n (value_counts sv col)).
Proof.
have := value_counts_sorted.
rewrite /sorted_by_count (sorted_pairwise count_desc_trans).
by rewrite -{1}(cat_take_drop n (value_counts sv col)) pairwise_cat => /and3P[].
Qed.

End ValueCounts.

(* Merge sort is stable, hence a sort that keeps ties. *)
Lemma stable_sort_keeps_ties : keeps_ties stable_sort_values.
Proof.
have tot : total (fun a b : string * nat => b.2 <= a.2).
  by move=> a b; exact: leq_total.
move=> s c /=; rewrite (filter_sort tot count_desc_trans).
apply: (sorted_sort count_desc_trans).
rewrite (sorted_pairwise count_desc_trans).
elim: s => [|x s IH] //=; case: ifP => // /eqP xc /=; rewrite IH andbT.
by apply/allP => y; rewrite mem_filter => /andP[/eqP-> _]; rewrite xc.
Qed.

(** C4, as the specification states it, fails on the order of ties: the
    code leaves equal counts to the sort of the library, and under a sort
    that is not stable the make that appears second in the filtered table is
    listed first. *)
Lemma top10_ties_not_in_input_order :
  [seq Make r | r <- sample_df] = [:: Some "FORD"; Some "TOYOTA"]%string
  /\ top_makes reverse_ties_sort_values sample_df
     = [:: ("TOYOTA", 1); ("FORD", 1)]%string
  /\ ~~ ties_in_input_order [seq Make r | r <- sample_df]
                            (top_makes reverse_ties_sort_values sample_df).
Proof. by []. Qed.

(** C4 (amended): for every filtered table, the top vehicle makes and the
    top violation descriptions have at most 10 rows each, hold the number
    of occurrences of each value and are sorted by count in descending
    order; values with equal counts are in the order in which the sort of
    the library leaves them, which is the order of their first appearance
    in the filtered table when that sort is stable. *)
Theorem top10_bounded_sorted_ties (sv : count_sort) (fdf : seq row) :
  [/\ size (top_makes sv fdf) <= 10,
      sorted_by_count (top_makes sv fdf),
      counts_of [seq Make r | r <- fdf] (top_makes sv fdf)
    & keeps_ties sv ->
      ties_in_input_order [seq Make r | r <- fdf] (top_makes sv fdf)]
  /\ [/\ size (top_violations sv fdf) <= 10,
         sorted_by_count (top_violations sv fdf),
         counts_of [seq Description r | r <- fdf] (top_violations sv fdf)
       & keeps_ties sv ->
         ties_in_input_order [seq Description r | r <- fdf]
                             (top_violations sv fdf)].
Proof. by split; apply: head_value_counts. Qed.

Lemma top10_bounded_sorted_ties_witness :
  ties_in_input_order [seq Make r | r <- sample_df]
                      (top_makes stable_sort_values sample_df)
  /\ ties_in_input_order [seq Description r | r <- sample_df]
                         (top_violations stable_sort_values sample_df).
Proof.
have [[_ _ _ makes] [_ _ _ descriptions]] :=
  top10_bounded_sorted_ties stable_sort_values sample_df.
by split; [apply: makes | apply: descriptions]; exact: stable_sort_keeps_ties.
Defined.

(* --------------------------------------------------------------------- *)
(* Data Explorer                                                           *)
(* --------------------------------------------------------------------- *)

(** C7: the CSV export holds exactly the filtered rows, one record per row
    and as many records as the filtered table has rows, while the preview
    shows the first 200 rows of the filtered table only. *)
Theorem export_all_rows_preview_200 (fdf : seq row) :
  [/\ csv_rows (to_csv fdf) = [seq csv_record r | r <- fdf],
      size (csv_rows (to_csv fdf)) = size fdf,
      preview fdf = take 200 fdf
    & size (preview fdf) = minn 200 (size fdf)].
Proof.
split=> //; first by rewrite /csv_rows /= size_map.
by rewrite /preview size_take_min.
Qed.

(** C10: filtering keeps the order of the rows: the filtered table is a
    subsequence of the loaded table; hence the records of the 200-row
    preview are a prefix of the records of the CSV export. *)
Theorem filtered_df_order_preserved (df : seq row) (date_range : seq Z)
    (sv sg sr svt : seq string) (fdf : seq row) :
  filtered_df df date_range sv sg sr svt = Some fdf ->
  subseq fdf df
  /\ prefix (preview fdf) fdf
  /\ prefix [seq csv_record r | r <- preview fdf] (csv_rows (to_csv fdf)).
Proof.
move=> /filtered_dfP[a [b [_ _ _ ->]]].
split; first exact: filter_subseq.
split; first exact: prefix_take.
by rewrite /csv_rows /preview /= map_take prefix_take.
Qed.

Lemma filtered_df_order_preserved_witness :
  subseq [:: sample_row (Some (to_datetime 19362)) (Some "M"%string)
                        (Some "FORD"%string)] sample_df_null.
Proof.
have [] := @filtered_df_order_preserved sample_df_null [:: 19362; 19363]%Z
             (vehicle_types sample_df_null) (genders sample_df_null)
             (races sample_df_null) (violation_types sample_df_null)
             [:: sample_row (Some (to_datetime 19362)) (Some "M"%string)
                            (Some "FORD"%string)].
- by [].
- by [].
Defined.

(* ===================================================================== *)
(* Further properties of the code                                          *)
(* ===================================================================== *)

(* --------------------------------------------------------------------- *)
(* The filter: date range                                                  *)
(* --------------------------------------------------------------------- *)

Lemma to_datetime_le (d d' : Z) : (d <= d')%Z -> (to_datetime d <= to_datetime d')%Z.
Proof. rewrite /to_datetime /ns_per_day; lia. Qed.

Lemma to_datetime_lt (d d' : Z) : (d < d')%Z -> (to_datetime d < to_datetime d')%Z.
Proof. rewrite /to_datetime /ns_per_day; lia. Qed.

(** X2: a date range whose end lies before its start selects no row. *)
Theorem inverted_range_empty (df : seq row) (d0 d1 : Z)
    (sv sg sr svt : seq string) :
  (d1 < d0)%Z -> filtered_df df [:: d0; d1] sv sg sr svt = Some [::].
Proof.
move=> /to_datetime_lt inv; rewrite filtered_df_range; congr Some.
rewrite -(filter_pred0 df); apply: eq_filter => r.
rewrite /row_mask /between; case: (Date_Of_Stop r) => [t|] //=.
by case: Z.leb_spec => //; case: Z.leb_spec => //; lia.
Qed.

Lemma inverted_range_empty_witness :
  filtered_df sample_df [:: 19363; 19362]%Z (vehicle_types sample_df)
              (genders sample_df) (races sample_df)
              (violation_types sample_df) = Some [::].
Proof. by apply: inverted_range_empty. Defined.

(** X3: a range of a single day keeps only rows stamped at midnight of that
    day: a stop with a time of day on that day is filtered out. *)
Theorem one_day_range_midnight_only (df : seq row) (d : Z)
    (sv sg sr svt : seq string) (fdf : seq row) (r : row) :
  filtered_df df [:: d; d] sv sg sr svt = Some fdf -> r \in fdf ->
  Date_Of_Stop r = Some (to_datetime d).
Proof.
rewrite filtered_df_range => -[<-]; rewrite mem_filter /row_mask /between.
case: (Date_Of_Stop r) => [t|] //= /andP[/andP[/andP[lo hi] _] _].
by congr Some; move/Z.leb_le: lo; move/Z.leb_le: hi; lia.
Qed.

Lemma one_day_range_midnight_only_witness :
  Date_Of_Stop (sample_row (Some (to_datetime 19362)) (Some "M"%string)
                           (Some "FORD"%string))
    = Some (to_datetime 19362).
Proof.
apply: (@one_day_range_midnight_only sample_df_timed 19362
          (vehicle_types sample_df_timed) (genders sample_df_timed)
          (races sample_df_timed) (violation_types sample_df_timed)
          [:: sample_row (Some (to_datetime 19362)) (Some "M"%string)
                         (Some "FORD"%string)]).
- by [].
- by rewrite mem_head.
Defined.

Lemma date_of_bounds (t : Z) :
  (to_datetime (date_of t) <= t < to_datetime (date_of t + 1))%Z.
Proof.
rewrite /date_of /to_datetime /ns_per_day.
have := Z.div_mod t 86400000000000.
have := Z.mod_pos_bound t 86400000000000; lia.
Qed.

(** X4: Timestamp.date() undoes pd.to_datetime on a day, and a stamp lies
    from midnight of its day up to, but not at, midnight of the next. *)
Theorem date_of_to_datetime (d t : Z) :
  date_of (to_datetime d) = d
  /\ (to_datetime (date_of t) <= t < to_datetime (date_of t + 1))%Z.
Proof.
split; last exact: date_of_bounds.
by rewrite /date_of /to_datetime /ns_per_day Z.div_mul.
Qed.

(* --------------------------------------------------------------------- *)
(* The filter: selections                                                  *)
(* --------------------------------------------------------------------- *)

Lemma isin_sub (v : option string) (s s' : seq string) :
  {subset s <= s'} -> isin v s -> isin v s'.
Proof. by case: v => [x|] //= sub; exact: sub. Qed.

Lemma between_sub (v : option Z) (lo hi lo' hi' : Z) :
  (lo' <= lo)%Z -> (hi <= hi')%Z -> between v lo hi -> between v lo' hi'.
Proof.
case: v => [t|] //= l h /andP[/Z.leb_le a /Z.leb_le b].
by apply/andP; split; apply/Z.leb_le; lia.
Qed.

(** X5: widening the filter never loses a row: with an earlier start, a
    later end and larger selections, the filtered table contains the former
    one as a subsequence. *)
Theorem filtered_df_monotone (df : seq row) (d0 d1 d0' d1' : Z)
    (sv sg sr svt sv' sg' sr' svt' : seq string) :
  (d0' <= d0)%Z -> (d1 <= d1')%Z ->
  {subset sv <= sv'} -> {subset sg <= sg'} -> {subset sr <= sr'} ->
  {subset svt <= svt'} ->
  exists fdf fdf',
    [/\ filtered_df df [:: d0; d1] sv sg sr svt = Some fdf,
        filtered_df df [:: d0'; d1'] sv' sg' sr' svt' = Some fdf'
      & subseq fdf fdf'].
Proof.
move=> /to_datetime_le lo /to_datetime_le hi v g ra vt.
do 2![eexists]; split; try exact: filtered_df_range.
have imp r : row_mask d0 d1 sv sg sr svt r -> row_mask d0' d1' sv' sg' sr' svt' r.
  rewrite /row_mask.
  case/and5P=> /(between_sub lo hi)-> /(isin_sub v)-> /(isin_sub g)->.
  by move=> /(isin_sub ra)-> /(isin_sub vt)->.
have -> : [seq r <- df | row_mask d0 d1 sv sg sr svt r]
          = [seq r <- [seq r <- df | row_mask d0' d1' sv' sg' sr' svt' r]
               | row_mask d0 d1 sv sg sr svt r].
  rewrite -filter_predI; apply: eq_filter => r /=.
  by case m: (row_mask d0 d1 sv sg sr svt r) => //=; rewrite (imp _ m).
exact: filter_subseq.
Qed.

Lemma filtered_df_monotone_witness :
  exists fdf fdf',
    [/\ filtered_df sample_df [:: 19363; 19363]%Z [:: "Car"%string]
                    [:: "F"%string] [:: "WHITE"%string] [:: "Citation"%string]
          = Some fdf,
        filtered_df sample_df [:: 19362; 19364]%Z [:: "Car"; "Truck"]%string
                    [:: "M"; "F"]%string [:: "WHITE"%string]
                    [:: "Warning"; "Citation"]%string
          = Some fdf'
      & subseq fdf fdf'].
Proof.
apply: filtered_df_monotone; try lia;
  by move=> x; rewrite !inE => /eqP->; rewrite eqxx ?orbT.
Defined.

(** X6: two filters applied one after the other give the same table in
    either order, the failure on a short date range included. *)
Theorem filtered_df_commute (df : seq row) (dr dr' : seq Z)
    (sv sg sr svt sv' sg' sr' svt' : seq string) :
  obind (fun fdf => filtered_df fdf dr' sv' sg' sr' svt')
        (filtered_df df dr sv sg sr svt)
  = obind (fun fdf => filtered_df fdf dr sv sg sr svt)
          (filtered_df df dr' sv' sg' sr' svt').
Proof.
case: dr dr' => [|a [|b dr]] [|a' [|b' dr']] //=; congr Some.
by rewrite -!filter_predI; apply: eq_filter => r /=; rewrite andbC.
Qed.

(** X7: filtering a filtered table again, with any second choice, gives the
    rows that pass both filters: those of the table that pass the first one
    and the second one. *)
Theorem filtered_df_twice (df : seq row) (d0 d1 d0' d1' : Z)
    (sv sg sr svt sv' sg' sr' svt' : seq string) :
  obind (fun fdf => filtered_df fdf [:: d0'; d1'] sv' sg' sr' svt')
        (filtered_df df [:: d0; d1] sv sg sr svt)
  = Some [seq r <- df | row_mask d0 d1 sv sg sr svt r
                        && row_mask d0' d1' sv' sg' sr' svt' r].
Proof.
rewrite /= -filter_predI; congr Some.
by apply: eq_filter => r /=; rewrite andbC.
Qed.

(** X8: the filtered table depends on the selections as sets only: the
    order in which the options were clicked and repeated values do not
    matter. *)
Theorem filtered_df_selection_sets (df : seq row) (date_range : seq Z)
    (sv sg sr svt sv' sg' sr' svt' : seq string) :
  sv =i sv' -> sg =i sg' -> sr =i sr' -> svt =i svt' ->
  filtered_df df date_range sv sg sr svt
  = filtered_df df date_range sv' sg' sr' svt'.
Proof.
move=> v g ra vt; case: date_range => [|a [|b dr]] //=; congr Some.
apply: eq_filter => r; rewrite /row_mask /isin.
by case: (VehicleType_Category r) => [?|]; case: (Gender r) => [?|];
   case: (Race r) => [?|]; case: (Violation_Type r) => [?|];
   rewrite ?v ?g ?ra ?vt.
Qed.

Lemma filtered_df_selection_sets_witness :
  filtered_df sample_df [:: 19362; 19363]%Z [:: "Car"%string]
              [:: "M"; "F"]%string [:: "WHITE"%string] [:: "Citation"%string]
  = filtered_df sample_df [:: 19362; 19363]%Z [:: "Car"; "Car"]%string
                [:: "F"; "M"]%string [:: "WHITE"%string]
                [:: "Citation"%string].
Proof.
apply: filtered_df_selection_sets => x //; rewrite !inE ?orbb //.
exact: orbC.
Defined.

Lemma leb_total : total String.leb.
Proof.
by move=> x y; apply/orP; case: (String.leb_total x y) => ->; [left | right].
Qed.

(** X9: the options of a multiselect are the non-null values of the column,
    each listed once, in ascending order. *)
Theorem options_sorted_distinct (col : seq (option string)) :
  [/\ sorted String.leb (options col), uniq (options col)
    & forall x, (x \in options col) = (Some x \in col)].
Proof.
split; last exact: mem_options.
- exact: sort_sorted leb_total _.
- by rewrite /options sort_uniq unique_uniq.
Qed.

(* --------------------------------------------------------------------- *)
(* The default of the date input                                           *)
(* --------------------------------------------------------------------- *)

Lemma dropna_nil (T : Type) (col : seq (option T)) :
  (size (dropna col) == 0) = ~~ has isSome col.
Proof. by rewrite /dropna size_pmap has_count; case: (count _ _). Qed.

Lemma date_min_le (df : seq row) (lo : Z) (r : row) (t : Z) :
  date_min df = Some lo -> r \in df -> Date_Of_Stop r = Some t -> (lo <= t)%Z.
Proof.
rewrite /date_min; case E: (dropna _) => [|t0 ts] // [<-] r_df dt.
by apply: foldr_min_le; rewrite -E mem_dropna -dt map_f.
Qed.

Lemma date_max_ge (df : seq row) (hi : Z) (r : row) (t : Z) :
  date_max df = Some hi -> r \in df -> Date_Of_Stop r = Some t -> (t <= hi)%Z.
Proof.
rewrite /date_max; case E: (dropna _) => [|t0 ts] // [<-] r_df dt.
by apply: foldr_max_ge; rewrite -E mem_dropna -dt map_f.
Qed.

Lemma date_of_le (t t' : Z) : (t <= t')%Z -> (date_of t <= date_of t')%Z.
Proof. by move=> tt'; apply: Z.div_le_mono. Qed.

(** X10: the date input has a default exactly when some row has a valid
    stop date; the default then holds two days, the first not after the
    second, and every valid stop date of the table lies from midnight of the
    first day up to, but not at, midnight after the second. *)
Theorem default_date_range_shape (df : seq row) :
  isSome (default_date_range df) = has (fun r => isSome (Date_Of_Stop r)) df
  /\ forall dr, default_date_range df = Some dr ->
     exists d0 d1,
       [/\ dr = [:: d0; d1], (d0 <= d1)%Z
         & forall r t, r \in df -> Date_Of_Stop r = Some t ->
             (to_datetime d0 <= t < to_datetime (d1 + 1))%Z].
Proof.
split.
  have -> : has (fun r => isSome (Date_Of_Stop r)) df
            = has isSome [seq Date_Of_Stop r | r <- df] by rewrite has_map.
  have := dropna_nil [seq Date_Of_Stop r | r <- df].
  rewrite /default_date_range /date_min /date_max.
  by case: (dropna _) => [|t ts] /= /esym; [move/negbTE-> | move/negbFE->].
move=> dr; rewrite /default_date_range.
case lo_df: (date_min df) => [lo|] //; case hi_df: (date_max df) => [hi|] //.
case=> <-; exists (date_of lo), (date_of hi).
have lo_hi : (lo <= hi)%Z.
  move: lo_df hi_df; rewrite /date_min /date_max.
  case: (dropna _) => [|t ts] // [<-] [<-].
  have := foldr_min_le (mem_head t ts); have := foldr_max_ge (mem_head t ts).
  lia.
split=> //; first exact: date_of_le.
move=> r t r_df dt.
have := date_min_le lo_df r_df dt; have := date_max_ge hi_df r_df dt.
have := date_of_bounds lo; have := date_of_bounds hi.
have := date_of_le lo_hi.
have := to_datetime_lt (d := date_of t) (d' := date_of hi + 1).
have := date_of_bounds t.
have := @date_of_le t hi.
lia.
Qed.

Lemma default_date_range_shape_witness :
  exists d0 d1,
    [/\ [:: 19362; 19363]%Z = [:: d0; d1], (d0 <= d1)%Z
      & forall r t, r \in sample_df_timed -> Date_Of_Stop r = Some t ->
          (to_datetime d0 <= t < to_datetime (d1 + 1))%Z].
Proof.
have [_ shape] := default_date_range_shape sample_df_timed.
exact: shape.
Defined.

Lemma default_date_range_covers_witness :
  exists d0 d1,
    default_date_range sample_df = Some [:: d0; d1]
    /\ all (fun r => between (Date_Of_Stop r) (to_datetime d0) (to_datetime d1))
           sample_df.
Proof. by apply: default_date_range_covers. Defined.

Lemma isin_optionsE (f : row -> option string) (df : seq row) (r : row) :
  r \in df -> isin (f r) (options [seq f x | x <- df]) = isSome (f r).
Proof.
by move=> r_df; case E: (f r) => [v|] //=; rewrite mem_options -E map_f.
Qed.

(** X11: what the dashboard shows before any widget is touched: the rows
    with a stop date not after midnight of the last day and no missing value
    in the four filter columns. *)
Theorem default_view (df : seq row) (dr : seq Z) :
  default_date_range df = Some dr ->
  exists2 hi, date_max df = Some hi
    & filtered_df df dr (vehicle_types df) (genders df) (races df)
                  (violation_types df)
      = Some [seq r <- df
               | [&& if Date_Of_Stop r is Some t
                     then (t <=? to_datetime (date_of hi))%Z else false,
                     isSome (VehicleType_Category r), isSome (Gender r),
                     isSome (Race r) & isSome (Violation_Type r)]].
Proof.
rewrite /default_date_range.
case lo_df: (date_min df) => [lo|] //; case hi_df: (date_max df) => [hi|] //.
case=> <-; exists hi => //; rewrite filtered_df_range; congr Some.
apply: eq_in_filter => r r_df.
rewrite /row_mask /vehicle_types /genders /races /violation_types.
rewrite !isin_optionsE //; congr andb.
rewrite /between; case dt: (Date_Of_Stop r) => [t|] //.
have := date_min_le lo_df r_df dt; have := date_of_bounds lo.
by case: Z.leb_spec => //; lia.
Qed.

Lemma default_view_witness :
  exists2 hi, date_max sample_df_timed = Some hi
    & filtered_df sample_df_timed [:: 19362; 19363]%Z
                  (vehicle_types sample_df_timed) (genders sample_df_timed)
                  (races sample_df_timed) (violation_types sample_df_timed)
      = Some [seq r <- sample_df_timed
               | [&& if Date_Of_Stop r is Some t
                     then (t <=? to_datetime (date_of hi))%Z else false,
                     isSome (VehicleType_Category r), isSome (Gender r),
                     isSome (Race r) & isSome (Violation_Type r)]].
Proof. by apply: default_view. Defined.

(* --------------------------------------------------------------------- *)
(* Overview metrics                                                        *)
(* --------------------------------------------------------------------- *)

Lemma size_unique (T : eqType) (s : seq T) : size (unique s) <= size s.
Proof.
elim: s => [|x s IH] //=; rewrite ltnS.
by apply: leq_trans IH; rewrite size_filter count_size.
Qed.

Lemma nunique_size (T : eqType) (col : seq (option T)) : nunique col <= size col.
Proof.
apply: leq_trans (size_unique _) _.
by rewrite /dropna size_pmap count_size.
Qed.

Lemma nunique_sub (T : eqType) (col col' : seq (option T)) :
  {subset col <= col'} -> nunique col <= nunique col'.
Proof.
move=> sub; apply: uniq_leq_size (unique_uniq _) _ => x.
by rewrite !mem_unique !mem_dropna; exact: sub.
Qed.

Lemma accident_relatedE (fdf : seq row) :
  accident_related fdf = count (fun r => Accident r) fdf.
Proof. by rewrite /accident_related sumn_count. Qed.

(** X12: none of the three counted metrics exceeds the "Total Violations"
    metric: accident related violations, high-risk locations and unique
    vehicle makes are each at most the number of filtered rows. *)
Theorem metrics_bounded (fdf : seq row) :
  [/\ accident_related fdf <= total_violations fdf,
      high_risk_locations fdf <= total_violations fdf
    & unique_vehicle_makes fdf <= total_violations fdf].
Proof.
split; first by rewrite accident_relatedE count_size.
- by rewrite -[total_violations fdf](size_map (@Location _ _)) nunique_size.
- by rewrite -[total_violations fdf](size_map (@Make _ _)) nunique_size.
Qed.

(** X13: filtering can only lower the metrics: each of the four metrics of
    a filtered table is at most the same metric of the whole table. *)
Theorem metrics_monotone (df : seq row) (date_range : seq Z)
    (sv sg sr svt : seq string) (fdf : seq row) :
  filtered_df df date_range sv sg sr svt = Some fdf ->
  [/\ total_violations fdf <= total_violations df,
      accident_related fdf <= accident_related df,
      high_risk_locations fdf <= high_risk_locations df
    & unique_vehicle_makes fdf <= unique_vehicle_makes df].
Proof.
move=> /filtered_dfP[a [b [_ _ _ ->]]].
have sub (f : row -> option string) :
    {subset [seq f r | r <- [seq r <- df | row_mask a b sv sg sr svt r]]
       <= [seq f r | r <- df]}.
  by move=> x /mapP[r]; rewrite mem_filter => /andP[_ r_df] ->; exact: map_f.
split; try exact: nunique_sub.
- by rewrite /total_violations size_filter count_size.
- rewrite !accident_relatedE count_filter.
  by apply: sub_count => r /andP[].
Qed.

Lemma metrics_monotone_witness :
  [/\ total_violations [:: sample_row (Some (to_datetime 19362))
                          (Some "M"%string) (Some "FORD"%string)]
        <= total_violations sample_df_null,
      accident_related [:: sample_row (Some (to_datetime 19362))
                          (Some "M"%string) (Some "FORD"%string)]
        <= accident_related sample_df_null,
      high_risk_locations [:: sample_row (Some (to_datetime 19362))
                          (Some "M"%string) (Some "FORD"%string)]
        <= high_risk_locations sample_df_null
    & unique_vehicle_makes [:: sample_row (Some (to_datetime 19362))
                          (Some "M"%string) (Some "FORD"%string)]
        <= unique_vehicle_makes sample_df_null].
Proof.
by apply: (@metrics_monotone sample_df_null [:: 19362; 19363]%Z
             (vehicle_types sample_df_null) (genders sample_df_null)
             (races sample_df_null) (violation_types sample_df_null)).
Defined.

(* --------------------------------------------------------------------- *)
(* Frequency tables                                                        *)
(* --------------------------------------------------------------------- *)

Section Counting.

Variable T : eqType.
Implicit Types (s keys : seq T).

Lemma sumn_map_add (f g : T -> nat) keys :
  sumn [seq f v + g v | v <- keys]
    = sumn [seq f v | v <- keys] + sumn [seq g v | v <- keys].
Proof. by elim: keys => [|v keys IH] //=; rewrite IH addnACA. Qed.

(* Counting every key of a duplicate-free list that holds all the values
   counts every value once. *)
Lemma sumn_count_keys keys s :
  uniq keys -> {subset s <= keys} ->
  sumn [seq count_mem v s | v <- keys] = size s.
Proof.
move=> keys_uniq; elim: s => [|x s IH] sub /=.
  by elim: keys {keys_uniq sub} => [|v keys IH] //=.
have -> : [seq (x == v) + count_mem v s | v <- keys]
          = [seq (pred1 x v : nat) + count_mem v s | v <- keys].
  by apply: eq_map => v /=; rewrite eq_sym.
have sub' : {subset s <= keys}.
  by move=> v v_s; apply: sub; rewrite inE v_s orbT.
by rewrite sumn_map_add sumn_count (IH sub') (count_uniq_mem _ keys_uniq) sub
           ?mem_head.
Qed.

Lemma sumn_count_unique s : sumn [seq count_mem v s | v <- unique s] = size s.
Proof.
by apply: sumn_count_keys (unique_uniq s) _ => x; rewrite mem_unique.
Qed.

End Counting.

Lemma size_value_counts (sv : count_sort) (col : seq (option string)) :
  size (value_counts sv col) = nunique col.
Proof. by rewrite (perm_size (value_counts_perm sv col)) size_map. Qed.

Lemma sumn_value_counts (sv : count_sort) (col : seq (option string)) :
  sumn [seq a.2 | a <- value_counts sv col] = count isSome col.
Proof.
rewrite (perm_sumn (perm_map snd (value_counts_perm sv col))).
rewrite -map_comp (@eq_map _ _ _ (fun v => count_mem v (dropna col))) //.
by rewrite sumn_count_unique /dropna size_pmap.
Qed.

Lemma sumn_take (n : nat) (s : seq nat) : sumn (take n s) <= sumn s.
Proof. by rewrite -{2}(cat_take_drop n s) sumn_cat leq_addr. Qed.

(** X14: a top-10 chart has as many bars as there are distinct values, up
    to 10: the top makes have min(10, "Unique Vehicle Makes") rows,
    whatever sort the library uses. *)
Theorem top10_size (sv : count_sort) (fdf : seq row) :
  size (top_makes sv fdf) = minn 10 (unique_vehicle_makes fdf)
  /\ size (top_violations sv fdf)
     = minn 10 (nunique [seq Description r | r <- fdf]).
Proof.
by rewrite /top_makes /top_violations !size_take_min !size_value_counts.
Qed.

Lemma head_value_counts_keys (sv : count_sort) (col : seq (option string))
    (n : nat) :
  uniq [seq a.1 | a <- take n (value_counts sv col)]
  /\ all (fun a => (0 < a.2) && (Some a.1 \in col))
         (take n (value_counts sv col)).
Proof.
split.
  rewrite map_take; apply: take_uniq.
  by rewrite (perm_uniq (value_counts_keys sv col)) unique_uniq.
apply/allP => a /mem_take a_vc.
have /eqP -> := allP (value_counts_counts sv col) _ a_vc.
have : a.1 \in [seq a.1 | a <- value_counts sv col] by exact: map_f.
rewrite (perm_mem (value_counts_keys sv col)) mem_unique mem_dropna => a_col.
by rewrite a_col andbT -has_count has_pred1.
Qed.

(** X15: the values of a top-10 table are distinct, each occurs in the
    filtered table, and each count is positive, whatever sort the library
    uses. *)
Theorem top10_keys (sv : count_sort) (fdf : seq row) :
  [/\ uniq [seq a.1 | a <- top_makes sv fdf],
      all (fun a => (0 < a.2) && (Some a.1 \in [seq Make r | r <- fdf]))
          (top_makes sv fdf),
      uniq [seq a.1 | a <- top_violations sv fdf]
    & all (fun a => (0 < a.2)
                    && (Some a.1 \in [seq Description r | r <- fdf]))
          (top_violations sv fdf)].
Proof.
have [um am] := head_value_counts_keys sv [seq Make r | r <- fdf] 10.
by have [ud ad] := head_value_counts_keys sv [seq Description r | r <- fdf] 10.
Qed.

(** X16: head(10) keeps the highest counts: no value left out of a top-10
    table occurs more often than a value in it, whatever sort the library
    uses. *)
Theorem top10_highest (sv : count_sort) (fdf : seq row) :
  allrel (fun a b => b.2 <= a.2) (top_makes sv fdf)
         (drop 10 (value_counts sv [seq Make r | r <- fdf]))
  /\ allrel (fun a b => b.2 <= a.2) (top_violations sv fdf)
            (drop 10 (value_counts sv [seq Description r | r <- fdf])).
Proof. by split; apply: head_value_counts_highest. Qed.

(** X17: the counts of a top-10 table add up to at most the number of
    filtered rows, and to exactly the number of rows with a value when the
    column has at most 10 distinct values, whatever sort the library
    uses. *)
Theorem top10_counts_total (sv : count_sort) (fdf : seq row) :
  sumn [seq a.2 | a <- top_makes sv fdf] <= total_violations fdf
  /\ (unique_vehicle_makes fdf <= 10 ->
      sumn [seq a.2 | a <- top_makes sv fdf]
        = count (fun r => isSome (Make r)) fdf).
Proof.
have total : sumn [seq a.2 | a <- value_counts sv [seq Make r | r <- fdf]]
             = count (fun r => isSome (Make r)) fdf.
  by rewrite sumn_value_counts count_map.
split.
  rewrite /top_makes map_take; apply: leq_trans (sumn_take _ _) _.
  by rewrite total count_size.
by move=> few; rewrite /top_makes take_oversize // size_value_counts.
Qed.

Lemma top10_counts_total_witness :
  sumn [seq a.2 | a <- top_makes reverse_ties_sort_values sample_df]
    = count (fun r => isSome (Make r)) sample_df.
Proof.
by have [_] := top10_counts_total reverse_ties_sort_values sample_df; apply.
Defined.

(* --------------------------------------------------------------------- *)
(* Violations by time of day                                               *)
(* --------------------------------------------------------------------- *)

Lemma sumn_value_counts_categorical (col : seq (option bucket)) :
  sumn [seq a.2 | a <- value_counts_categorical col] = count isSome col.
Proof.
rewrite /value_counts_categorical.
rewrite (perm_sumn (perm_map snd (permEl (perm_sort _ _)))) -map_comp.
rewrite (@eq_map _ _ _ (fun c => count_mem c (dropna col))) //.
rewrite sumn_count_keys // /dropna ?size_pmap //.
by move=> b _; case: b.
Qed.

Lemma sumn_time_df (fdf : seq row) :
  sumn [seq a.2 | a <- time_df fdf] = count (fun r => isSome (Time_Bucket r)) fdf.
Proof. by rewrite /time_df sumn_value_counts_categorical count_map. Qed.

(** X18: the time-of-day chart always has one bar per bucket, four in all,
    a bucket that does not occur having count 0; the bars are in descending
    order of count, each count is the number of filtered rows of the bucket,
    and the counts add up to the number of rows that have a bucket. *)
Theorem time_df_four_buckets (fdf : seq row) :
  [/\ size (time_df fdf) = 4,
      perm_eq [seq a.1 | a <- time_df fdf] categories,
      sorted (fun a b => b.2 <= a.2) (time_df fdf),
      all (fun a => a.2 == count (fun r => Time_Bucket r == Some a.1) fdf)
          (time_df fdf)
    & sumn [seq a.2 | a <- time_df fdf]
      = count (fun r => isSome (Time_Bucket r)) fdf].
Proof.
split.
- by rewrite /time_df /value_counts_categorical size_sort.
- rewrite /time_df /value_counts_categorical.
  exact: (perm_map fst (permEl (perm_sort _ _))).
- by apply: sort_sorted => a b; exact: leq_total.
- rewrite /time_df /value_counts_categorical all_sort all_map.
  apply/allP => c _ /=; rewrite count_dropna count_map.
  by apply/eqP/eq_count => r /=; rewrite eq_sym.
- exact: sumn_time_df.
Qed.

(** X19: when every stop hour of the loaded table lies between 0 and 24,
    every row has a bucket, and the counts of the time-of-day chart add up
    to the "Total Violations" metric. *)
Theorem time_df_total (parse_datetime : string -> option Z)
    (raw : seq raw_row) (date_range : seq Z) (sv sg sr svt : seq string)
    (fdf : seq row) :
  all (fun r => (0 <=? Stop_Hour r)%Z && (Stop_Hour r <=? 24)%Z) raw ->
  filtered_df (prepare parse_datetime raw) date_range sv sg sr svt = Some fdf ->
  sumn [seq a.2 | a <- time_df fdf] = total_violations fdf.
Proof.
move=> hours /filtered_dfP[a [b [_ _ _ ->]]]; rewrite sumn_time_df.
apply/eqP; rewrite -all_count all_filter /prepare all_map.
apply: sub_all hours => r /andP[lo hi]; apply/implyP => _ /=.
rewrite time_bucketE /right_closed_time_bucket lo hi andbT !Z.ltb_antisym.
by case: (_ <=? 6)%Z; case: (_ <=? 12)%Z; case: (_ <=? 18)%Z.
Qed.

Lemma time_df_total_witness :
  sumn [seq a.2 | a <- time_df (prepare sample_parse
                                  [:: sample_raw "2023-01-05" 0;
                                      sample_raw "2023-01-05" 23])]
    = total_violations (prepare sample_parse
                          [:: sample_raw "2023-01-05" 0;
                              sample_raw "2023-01-05" 23]).
Proof.
by apply: (@time_df_total sample_parse
             [:: sample_raw "2023-01-05" 0; sample_raw "2023-01-05" 23]
             [:: 19362; 19362]%Z [:: "Car"%string] [:: "M"%string]
             [:: "WHITE"%string] [:: "Citation"%string]).
Defined.

(* --------------------------------------------------------------------- *)
(* Data Explorer, small tables                                             *)
(* --------------------------------------------------------------------- *)

(** X20: a filtered table of at most 200 rows is previewed in full: the
    preview is the table itself and shows every record of the export. *)
Theorem small_table_preview_complete (fdf : seq row) :
  size fdf <= 200 ->
  preview fdf = fdf
  /\ csv_rows (to_csv fdf) = [seq csv_record r | r <- preview fdf].
Proof. by move=> small; rewrite /preview take_oversize. Qed.

Lemma small_table_preview_complete_witness :
  preview sample_df = sample_df
  /\ csv_rows (to_csv sample_df) = [seq csv_record r | r <- preview sample_df].
Proof. by apply: small_table_preview_complete. Defined.
